(** * Team-name voting app: submissions, vote ledger and leaderboard

    A shallow embedding of [main.py]: the three operations [add_name],
    [cast_votes] and [get_leaderboard], over a world made of the wall clock
    and the two spreadsheet files, with the pandas operations the code calls
    written out on a small column-major data frame. *)

From stdpp Require Import gmap strings list pretty sorting.

Open Scope string_scope.
Open Scope list_scope.
Open Scope nat_scope.

(** ** Python values *)

(** [datetime]: the naive date-time of the standard library. *)
Record datetime := mk_datetime {
  year : nat; month : nat; day : nat;
  hour : nat; minute : nat; second : nat; microsecond : nat }.

Definition datetime_fields (d : datetime) : list nat :=
  [year d; month d; day d; hour d; minute d; second d; microsecond d].

Fixpoint lex_ltb (a b : list nat) : bool :=
  match a, b with
  | x :: a', y :: b' => (x <? y)%nat || ((x =? y)%nat && lex_ltb a' b')
  | [], _ :: _ => true
  | _, [] => false
  end.

(** [d1 < d2] on naive datetimes: field by field, most significant first. *)
Definition datetime_ltb (d1 d2 : datetime) : bool :=
  lex_ltb (datetime_fields d1) (datetime_fields d2).

Definition zero_pad (width n : nat) : string :=
  let s := pretty n in
  String.concat "" (replicate (width - String.length s) "0") +:+ s.

(** [d.strftime('%Y-%m-%d %H:%M:%S')] (years of four digits). *)
Definition strftime (d : datetime) : string :=
  zero_pad 4 (year d) +:+ "-" +:+ zero_pad 2 (month d) +:+ "-" +:+
  zero_pad 2 (day d) +:+ " " +:+ zero_pad 2 (hour d) +:+ ":" +:+
  zero_pad 2 (minute d) +:+ ":" +:+ zero_pad 2 (second d).

(** What [selected_names] can be when the checkbox group calls [cast_votes]:
    [None], a list of names, or (as the code allows for) one bare string. *)
Inductive selection :=
  | SelNone
  | SelList (names : list string)
  | SelStr (name : string).

(** ** A small pandas *)

(** One cell of a table read by [read_excel]: a string, a missing value
    ([NaN], an empty spreadsheet cell) or the [None] object that
    [sub_df[col] = None] stores. *)
Inductive cell := CStr (s : string) | CNaN | CNone.

#[global] Instance cell_eq_dec : EqDecision cell.
Proof. solve_decision. Defined.

Abbreviation Series := (list cell).

(** A data frame, row by row: the column labels in order, and the records,
    each holding its cells in the order of the labels.  A record shorter than
    the labels is missing its last cells, as a short spreadsheet row is. *)
Record DataFrame := mk_frame {
  columns : list string;
  rows : list (list cell) }.

(** [DataFrame(columns=cols)] *)
Definition empty_frame (cols : list string) : DataFrame := mk_frame cols [].

(** [DataFrame({"c1": [x1], "c2": [x2], ...})] with one value per column,
    and [DataFrame({"c": xs})] with one column. *)
Definition one_record (entry : list (string * cell)) : DataFrame :=
  mk_frame (map fst entry) [map snd entry].

Definition one_column (c : string) (xs : list cell) : DataFrame :=
  mk_frame [c] (map (fun x => [x]) xs).

(** [c in df.columns] *)
Definition has_column (df : DataFrame) (c : string) : bool :=
  bool_decide (c ∈ columns df).

(** The cell of record [r] under label [c]; missing when the record is too
    short or has no such label. *)
Fixpoint cell_at (cols : list string) (r : list cell) (c : string) : cell :=
  match cols, r with
  | k :: cols', x :: r' => if decide (k = c) then x else cell_at cols' r' c
  | _, _ => CNaN
  end.

(** [df[c]]: the values of a column; no result where pandas raises
    [KeyError]. *)
Definition column (df : DataFrame) (c : string) : option Series :=
  if has_column df c then Some (map (fun r => cell_at (columns df) r c) (rows df))
  else None.

(** [len(df)] *)
Definition nrows (df : DataFrame) : nat := length (rows df).

(** [df.empty]: no columns or no rows. *)
Definition frame_empty (df : DataFrame) : bool :=
  bool_decide (columns df = []) || bool_decide (rows df = []).

(** The records of [df] laid out under the labels [cols]. *)
Definition reindex (cols : list string) (df : DataFrame) : list (list cell) :=
  map (fun r => map (cell_at (columns df) r) cols) (rows df).

(** [df[c] = None] for a label [c] the frame does not have yet. *)
Definition add_none_column (df : DataFrame) (c : string) : DataFrame :=
  mk_frame (columns df ++ [c])
           (map (fun r => r ++ [CNone]) (reindex (columns df) df)).

(** [pd.concat([a, b], ignore_index=True)]: the records of [a], then those
    of [b]; under the labels of [a], then those only [b] has; [NaN] where a
    frame lacks a column. *)
Definition concat (a b : DataFrame) : DataFrame :=
  let cols :=
    columns a ++ filter (fun c => has_column a c = false) (columns b) in
  mk_frame cols (reindex cols a ++ reindex cols b).

(** [str(x)] of a cell's value. *)
Definition str_of_cell (c : cell) : string :=
  match c with
  | CStr s => s
  | CNaN => "nan"
  | CNone => "None"
  end.

(** [s.astype(str)]: every value becomes its [str()], missing ones
    included ([NaN] becomes the text [nan]), so nothing is missing
    afterwards. *)
Definition astype_str (s : Series) : Series :=
  map (fun c => CStr (str_of_cell c)) s.

Definition isna (c : cell) : bool :=
  match c with
  | CStr _ => false
  | _ => true
  end.

(** [s.dropna()] *)
Definition dropna (s : Series) : Series :=
  filter (fun c => isna c = false) s.

(** [s.str.lower()], for the [lower] of [str]; missing values stay missing. *)
Definition series_str_map (f : string -> string) (s : Series) : Series :=
  map (fun c => match c with CStr x => CStr (f x) | _ => c end) s.

(** The [str] objects of a series, in order: what [tolist()], [.values] and
    iteration hand to Python code once [astype(str)] has run. *)
Definition str_values (s : Series) : list string :=
  omap (fun c => match c with CStr x => Some x | _ => None end) s.

(** First-seen de-duplication: [list(dict.fromkeys(l))] and
    [Series.unique()]. *)
Fixpoint first_seen {A} `{EqDecision A} (seen l : list A) : list A :=
  match l with
  | [] => []
  | x :: rest =>
      if decide (x ∈ seen) then first_seen seen rest
      else x :: first_seen (x :: seen) rest
  end.

Definition unique {A} `{EqDecision A} (l : list A) : list A := first_seen [] l.

(** [s.value_counts().to_dict()]: occurrences per value, missing values
    not counted. *)
Fixpoint value_counts (s : Series) : gmap string Z :=
  match s with
  | [] => ∅
  | CStr x :: rest =>
      let m := value_counts rest in <[x := (1 + default 0 (m !! x))%Z]> m
  | _ :: rest => value_counts rest
  end.

(** [l.sort(key=key, reverse=True)]: the stable sort by decreasing key.
    An element goes in front of the sorted rest, past the strictly larger
    keys only, so equal keys keep the order they came in. *)
Fixpoint insert_desc {A} (key : A -> Z) (x : A) (l : list A) : list A :=
  match l with
  | [] => [x]
  | y :: rest =>
      if (key x <? key y)%Z then y :: insert_desc key x rest
      else x :: y :: rest
  end.

Fixpoint sort_reverse {A} (key : A -> Z) (l : list A) : list A :=
  match l with
  | [] => []
  | x :: rest => insert_desc key x (sort_reverse key rest)
  end.

(** ** The world: wall clock and files *)

(** Under each path the world keeps the table as pandas has it: the one
    [read_excel] returns, and after a write the one handed to [to_excel].
    What the spreadsheet format does to a table between a write and a later
    read is not part of this world, so the statements below are about what
    one call reads, returns and hands to the writer. *)

Record world := mk_world {
  clock : datetime;
  files : gmap string DataFrame }.

Inductive outcome (A : Type) :=
  | Returns (a : A)
  | Raises.
Arguments Returns {A} a.
Arguments Raises {A}.

(** Computations that read the clock, read and write files, and may raise. *)
Definition M (A : Type) : Type := world -> outcome A * world.

#[global] Instance M_ret : MRet M := fun A a w => (Returns a, w).

#[global] Instance M_bind : MBind M := fun A B k m w =>
  match m w with
  | (Returns a, w') => k a w'
  | (Raises, w') => (Raises, w')
  end.

(** [try: m except Exception: h] *)
Definition try_except {A} (m h : M A) : M A :=
  fun w => match m w with
           | (Returns a, w') => (Returns a, w')
           | (Raises, w') => h w'
           end.

(** [datetime.now()] *)
Definition datetime_now : M datetime := fun w => (Returns (clock w), w).

(** [pd.read_excel(path)]: raises when the file is missing, unreadable or
    corrupt, which the world records as no frame under that path. *)
Definition read_excel (path : string) : M DataFrame :=
  fun w => match files w !! path with
           | Some df => (Returns df, w)
           | None => (Raises, w)
           end.

(** [df.to_excel(path, index=False)]: the file now holds [df]. *)
Definition to_excel (df : DataFrame) (path : string) : M unit :=
  fun w => (Returns tt, mk_world (clock w) (<[path := df]> (files w))).

(** [df[c]] as the interpreter runs it: [KeyError] when the label is absent. *)
Definition getitem (df : DataFrame) (c : string) : M Series :=
  fun w => match column df c with
           | Some s => (Returns s, w)
           | None => (Raises, w)
           end.

(** ** The program *)

Definition VOTING_START : datetime := mk_datetime 2025 4 2 20 38 0 0.

Definition cast_votes (selected_names : selection) (votes_remaining : Z)
  : M (Z * string) :=
  now ← datetime_now;
  if datetime_ltb now VOTING_START then
    mret (votes_remaining,
         "⚠️ Voting is not open yet. Please come back after "
           +:+ strftime VOTING_START +:+ ".")
  else
  match selected_names with
  | SelNone | SelList [] =>
      mret (votes_remaining, "⚠️ No names selected. Please choose up to 3.")
  | _ =>
  let selected_names :=
    match selected_names with
    | SelStr s => [s]
    | SelList l => l
    | SelNone => []
    end in
  if (votes_remaining <=? 0)%Z then
    mret (votes_remaining, "⚠️ You have no votes remaining.")
  else if (Z.of_nat (length selected_names) >? votes_remaining)%Z then
    mret (votes_remaining,
         "⚠️ You can only vote for " +:+ pretty votes_remaining
           +:+ " more name(s).")
  else
  votes_df ← try_except (read_excel "votes.xlsx") (mret (empty_frame ["Name"]));
  let new_votes := one_column "Name" (map CStr selected_names) in
  let votes_df := concat votes_df new_votes in
  to_excel votes_df "votes.xlsx";;
  let new_remaining := (votes_remaining - Z.of_nat (length selected_names))%Z in
  let message :=
    if (length selected_names =? 1)%nat then "✅ Vote recorded!"
    else "✅ Votes recorded!" in
  let message :=
    if (new_remaining >? 0)%Z then
      message +:+ " You have " +:+ pretty new_remaining +:+ " vote(s) left."
    else message +:+ " You have no votes left." in
  mret (new_remaining, message)
  end.

(** The rows of the leaderboard table: team name and votes. *)
Abbreviation row := (string * Z)%type.

Definition get_leaderboard : M (list row) :=
  sub_df ← try_except (read_excel "submissions.xlsx")
                      (mret (empty_frame ["Name"]));
  votes_df ← try_except (read_excel "votes.xlsx")
                        (mret (empty_frame ["Name"]));
  all_names ←
    (if has_column sub_df "Name" then
       names ← getitem sub_df "Name";
       mret (str_values (dropna (astype_str names)))
     else mret []);
  let all_names := unique all_names in
  vote_counts ←
    (if has_column votes_df "Name" && negb (frame_empty votes_df) then
       names ← getitem votes_df "Name";
       mret (value_counts (astype_str names))
     else mret ∅);
  let leaderboard_data : list row :=
    map (fun name => (name, default 0%Z (vote_counts !! name))) all_names in
  leaderboard_data ←
    (if has_column votes_df "Name" then
       names ← getitem votes_df "Name";
       mret (foldl (fun data name =>
                      if bool_decide (name ∈ all_names) then data
                      else data ++ [(name, default 0%Z (vote_counts !! name))])
                   leaderboard_data
                   (str_values (unique (astype_str names))))
     else mret leaderboard_data);
  mret (sort_reverse snd leaderboard_data).

(** One turn of the loop that makes sure a column exists:
    [if col not in sub_df.columns: sub_df[col] = None]. *)
Definition ensure_column (df : DataFrame) (col : string) : DataFrame :=
  if has_column df col then df else add_none_column df col.

Section StrMethods.

(** [str.strip] and [str.lower] of the interpreter, over Unicode text. *)
Variable str_strip : string -> string.
Variable str_lower : string -> string.

Definition add_name (name tag : string) : M string :=
  let name := str_strip name in
  let tag := str_strip tag in
  if decide (name = "") then mret "⚠️ Please enter a team name."
  else if decide (tag = "") then mret "⚠️ Please include an anonymous tag."
  else
  sub_df ← try_except (read_excel "submissions.xlsx")
                      (mret (empty_frame ["Name"; "Tag"; "Timestamp"]));
  let sub_df := foldl ensure_column sub_df ["Name"; "Tag"; "Timestamp"] in
  let normalized_name := str_lower name in
  names ← getitem sub_df "Name";
  if bool_decide (CStr normalized_name
                    ∈ series_str_map str_lower (astype_str names)) then
    mret ("⚠️ The name '" +:+ name +:+ "' has already been submitted.")
  else
  now ← datetime_now;
  let timestamp := strftime now in
  let new_entry :=
    one_record [("Name", CStr name); ("Tag", CStr tag);
                ("Timestamp", CStr timestamp)] in
  let sub_df := concat sub_df new_entry in
  to_excel sub_df "submissions.xlsx";;
  mret ("✅ Team name '" +:+ name +:+ "' with tag '" +:+ tag
          +:+ "' submitted successfully at " +:+ timestamp +:+ "!").

End StrMethods.

(** [strip] and [lower] on ASCII text, to run [add_name] on examples. *)
Definition is_space (a : Ascii.ascii) : bool :=
  let n := Ascii.nat_of_ascii a in
  (n =? 32) || ((9 <=? n) && (n <=? 13)) || ((28 <=? n) && (n <=? 31)).

Fixpoint lstrip (s : string) : string :=
  match s with
  | String a rest => if is_space a then lstrip rest else s
  | EmptyString => EmptyString
  end.

Definition ascii_strip (s : string) : string :=
  String.rev (lstrip (String.rev (lstrip s))).

Definition lower_char (a : Ascii.ascii) : Ascii.ascii :=
  let n := Ascii.nat_of_ascii a in
  if (65 <=? n) && (n <=? 90) then Ascii.ascii_of_nat (n + 32) else a.

Fixpoint ascii_lower (s : string) : string :=
  match s with
  | String a rest => String (lower_char a) (ascii_lower rest)
  | EmptyString => EmptyString
  end.

Definition subs_ABC : DataFrame :=
  mk_frame ["Name"; "Tag"; "Timestamp"]
    [[CStr "A"; CStr "t1"; CStr "2025-04-01 10:00:00"];
     [CStr "B"; CStr "t2"; CStr "2025-04-01 10:05:00"];
     [CStr "C"; CStr "t3"; CStr "2025-04-01 10:09:00"]].

Definition votes_AAB : DataFrame :=
  mk_frame ["Name"] [[CStr "A"]; [CStr "B"]; [CStr "A"]].

Definition world_ABC : world :=
  mk_world (mk_datetime 2025 4 3 9 0 0 0)
    (<["submissions.xlsx" := subs_ABC]> (<["votes.xlsx" := votes_AAB]> ∅)).

(** Two submissions, one of them with an empty [Name] cell. *)
Definition subs_missing_name : DataFrame :=
  mk_frame ["Name"; "Tag"; "Timestamp"]
    [[CStr "Alpha"; CStr "a1"; CStr "2025-04-01 10:00:00"];
     [CNaN; CStr "b2"; CStr "2025-04-01 10:05:00"]].

Definition world_missing_name : world :=
  mk_world (mk_datetime 2025 4 3 9 0 0 0)
    (<["submissions.xlsx" := subs_missing_name]>
       (<["votes.xlsx" := empty_frame ["Name"]]> ∅)).

(** Submissions A and B; votes for Z (never submitted) and for A. *)
Definition world_orphan : world :=
  mk_world (mk_datetime 2025 4 3 9 0 0 0)
    (<["submissions.xlsx" :=
         mk_frame ["Name"; "Tag"; "Timestamp"]
           [[CStr "A"; CStr "t1"; CStr "2025-04-01 10:00:00"];
            [CStr "B"; CStr "t2"; CStr "2025-04-01 10:05:00"]]]>
       (<["votes.xlsx" := mk_frame ["Name"] [[CStr "Z"]; [CStr "A"]]]> ∅)).

(** One second before the opening instant. *)
Definition before_open : world :=
  mk_world (mk_datetime 2025 4 2 20 37 59 0)
    (<["votes.xlsx" := votes_AAB]> ∅).

(** At the opening instant, with neither file readable. *)
Definition after_open : world :=
  mk_world (mk_datetime 2025 4 2 20 38 0 0) ∅.

(** ** Vocabulary of the statements *)

(** The [Name] cells of the records a file holds, in order ([NaN] where a
    record has none); nothing when the file cannot be read. *)
Definition name_cells (path : string) (w : world) : Series :=
  match files w !! path with
  | Some df => map (fun r => cell_at (columns df) r "Name") (rows df)
  | None => []
  end.

(** The world once [path] holds [df]. *)
Definition written (path : string) (df : DataFrame) (w : world) : world :=
  mk_world (clock w) (<[path := df]> (files w)).

(** Voting is open in [w]: the clock is not before the opening instant. *)
Definition voting_open (w : world) : Prop :=
  datetime_ltb (clock w) VOTING_START = false.

(** The success message as the specification words it: singular for exactly
    one vote, plural otherwise; then the budget left, or that none is left
    when it is zero. *)
Definition spec_success_message (cast : nat) (left : Z) : string :=
  (if decide (cast = 1) then "✅ Vote recorded!" else "✅ Votes recorded!")
  +:+ (if decide (left = 0%Z) then " You have no votes left."
       else " You have " +:+ pretty left +:+ " vote(s) left.").

(** The names a selection holds, a bare string counting as one name. *)
Definition selected (sel : selection) : list string :=
  match sel with
  | SelNone => []
  | SelList names => names
  | SelStr s => [s]
  end.

(** The selection the first check looks for: [None] or the empty list. *)
Definition nothing_selected (sel : selection) : Prop :=
  sel = SelNone \/ sel = SelList [].


(** The names the leaderboard reads from a file: the text of each value of
    its [Name] column; none when the file cannot be read or has no such
    column. *)
Definition column_texts (path : string) (w : world) : list string :=
  match files w !! path with
  | Some df => map str_of_cell (default [] (column df "Name"))
  | None => []
  end.

(** The votes recorded for [name]: the vote records carrying exactly that
    text. *)
Definition votes_for (w : world) (name : string) : Z :=
  Z.of_nat (length (filter (fun v => v = name) (column_texts "votes.xlsx" w))).

(** The rows before sorting, as the specification orders them: the
    submitted names, each once, in first-seen order; then the voted names
    that were never submitted, in the order the votes first mention them. *)
Definition rows_in_order (w : world) : list row :=
  map (fun n => (n, votes_for w n))
      (unique (column_texts "submissions.xlsx" w))
  ++ map (fun n => (n, votes_for w n))
         (filter (fun n => n ∉ column_texts "submissions.xlsx" w)
                 (unique (column_texts "votes.xlsx" w))).

(** [part] occurs in [s]. *)
Definition includes (s part : string) : Prop :=
  exists before after, s = before +:+ part +:+ after.

(** ** The rest of the program: name choices and the Vote button *)

(** [gr.update(choices=..., value=...)]: what the checkbox group is told to
    offer and to tick. *)
Record gr_update := mk_update {
  choices : list string;
  value : list string }.

Definition refresh_name_list : M gr_update :=
  names_list ←
    try_except
      (sub_df ← read_excel "submissions.xlsx";
       names ← getitem sub_df "Name";
       mret (str_values (dropna (astype_str names))))
      (mret []);
  mret (mk_update names_list []).

(** [votes_state = gr.State(3)] *)
Definition initial_votes_state : Z := 3.

(** Time passes: from here on the wall clock reads [now]. *)
Definition set_clock (now : datetime) : M unit :=
  fun w => (Returns tt, mk_world now (files w)).

(** The Vote button over one session,
    [vote_btn.click(fn=cast_votes, inputs=[vote_group, votes_state],
    outputs=[votes_state, vote_msg])]: each click, at its own time and with
    its own selection, runs [cast_votes] on the session state and stores the
    first result back into it. *)
Fixpoint vote_clicks (clicks : list (datetime * selection)) (votes_state : Z)
  : M Z :=
  match clicks with
  | [] => mret votes_state
  | (now, selected_names) :: rest =>
      set_clock now;;
      result ← cast_votes selected_names votes_state;
      vote_clicks rest result.1
  end.

(** The votes a table shows in all. *)
Definition total_votes (table : list row) : Z :=
  foldr (fun r acc => (r.2 + acc)%Z) 0%Z table.

(** Three clicks of one session after the opening: two names, then two more
    (one too many), then one. *)
Definition three_clicks : list (datetime * selection) :=
  [(mk_datetime 2025 4 3 9 0 0 0, SelList ["A"; "B"]);
   (mk_datetime 2025 4 3 9 1 0 0, SelList ["C"; "A"]);
   (mk_datetime 2025 4 3 9 2 0 0, SelList ["C"])].

(** De-duplication as the specification words it: a name stays where it is
    first seen, and its later repeats go. *)
Fixpoint spec_first_seen (l : list string) : list string :=
  match l with
  | [] => []
  | x :: rest => x :: filter (fun y => y <> x) (spec_first_seen rest)
  end.

(** The rows before sorting, as the specification orders them: the
    submitted names, de-duplicated in first-seen order; then the voted names
    that were never submitted, in the order the votes first mention them. *)
Definition spec_rows_in_order (w : world) : list row :=
  map (fun n => (n, votes_for w n))
      (spec_first_seen (column_texts "submissions.xlsx" w))
  ++ map (fun n => (n, votes_for w n))
         (filter (fun n => n ∉ column_texts "submissions.xlsx" w)
                 (spec_first_seen (column_texts "votes.xlsx" w))).

(** Submissions B, A, B, C, A; votes Z, A, Z, A, Y. *)
Definition world_repeats : world :=
  mk_world (mk_datetime 2025 4 3 9 0 0 0)
    (<["submissions.xlsx" :=
         mk_frame ["Name"; "Tag"; "Timestamp"]
           [[CStr "B"; CStr "t1"; CStr "2025-04-01 10:00:00"];
            [CStr "A"; CStr "t2"; CStr "2025-04-01 10:01:00"];
            [CStr "B"; CStr "t3"; CStr "2025-04-01 10:02:00"];
            [CStr "C"; CStr "t4"; CStr "2025-04-01 10:03:00"];
            [CStr "A"; CStr "t5"; CStr "2025-04-01 10:04:00"]]]>
       (<["votes.xlsx" :=
            mk_frame ["Name"]
              [[CStr "Z"]; [CStr "A"]; [CStr "Z"]; [CStr "A"]; [CStr "Y"]]]> ∅)).

(** The submissions table as [read_excel] returns it when the one name
    stored is the text NA: the reader takes that text for a missing value. *)
Definition world_NA_read_back : world :=
  mk_world (mk_datetime 2025 4 3 9 0 0 0)
    (<["submissions.xlsx" :=
         mk_frame ["Name"; "Tag"; "Timestamp"]
           [[CNaN; CStr "x"; CStr "2025-04-01 10:00:00"]]]> ∅).


Example strftime_start : strftime VOTING_START = "2025-04-02 20:38:00".
Proof. reflexivity. Qed.

Example cast_two :
  fst (cast_votes (SelList ["Alpha"; "Beta"]) 3 after_open)
  = Returns (1%Z, "✅ Votes recorded! You have 1 vote(s) left.").
Proof. vm_compute. reflexivity. Qed.


(** ** Facts about the data frames *)

Lemma cell_at_map (f : string -> cell) (cols : list string) (c : string) :
  c ∈ cols -> cell_at cols (map f cols) c = f c.
Proof.
  induction cols as [|k cols IH]; intros Hin.
  - by apply not_elem_of_nil in Hin.
  - simpl. destruct (decide (k = c)) as [->|Hne]; [done|].
    apply IH. apply elem_of_cons in Hin as [Heq|Hin]; [congruence|done].
Qed.

Lemma cell_at_absent (cols : list string) (r : list cell) (c : string) :
  c ∉ cols -> cell_at cols r c = CNaN.
Proof.
  revert r. induction cols as [|k cols IH]; intros r Hnin; [done|].
  destruct r as [|x r]; [done|]. simpl.
  destruct (decide (k = c)) as [->|Hne].
  - exfalso. apply Hnin. by left.
  - apply IH. intros Hin. apply Hnin. by right.
Qed.

Lemma has_column_true (df : DataFrame) (c : string) :
  has_column df c = true <-> c ∈ columns df.
Proof. unfold has_column. by rewrite bool_decide_eq_true. Qed.

Lemma has_column_false (df : DataFrame) (c : string) :
  has_column df c = false <-> c ∉ columns df.
Proof. unfold has_column. by rewrite bool_decide_eq_false. Qed.

Lemma column_present (df : DataFrame) (c : string) :
  has_column df c = true ->
  column df c = Some (map (fun r => cell_at (columns df) r c) (rows df)).
Proof. intros H. unfold column. by rewrite H. Qed.

Lemma columns_concat (a b : DataFrame) (c : string) :
  c ∈ columns (concat a b) <-> c ∈ columns a \/ c ∈ columns b.
Proof.
  unfold concat. simpl. rewrite elem_of_app, list_elem_of_filter.
  rewrite has_column_false. split.
  - intros [H|[_ H]]; auto.
  - intros [H|H]; [by left|].
    destruct (decide (c ∈ columns a)); [by left|by right].
Qed.

(** The values of a column after [concat]: those of the first frame, then
    those of the second. *)
Lemma column_concat (a b : DataFrame) (c : string) :
  c ∈ columns a \/ c ∈ columns b ->
  column (concat a b) c
  = Some (map (fun r => cell_at (columns a) r c) (rows a)
          ++ map (fun r => cell_at (columns b) r c) (rows b)).
Proof.
  intros Hc. apply columns_concat in Hc.
  rewrite column_present by (by apply has_column_true).
  f_equal. unfold concat in *. simpl in *. unfold reindex.
  rewrite map_app, !map_map. f_equal.
  - apply map_ext. intros r. by rewrite cell_at_map.
  - apply map_ext. intros r. by rewrite cell_at_map.
Qed.

Lemma column_one_column (c : string) (xs : list cell) :
  map (fun r => cell_at (columns (one_column c xs)) r c) (rows (one_column c xs))
  = xs.
Proof.
  unfold one_column. simpl. rewrite map_map. simpl.
  induction xs as [|x xs IH]; simpl; [done|].
  rewrite IH. by destruct (decide (c = c)).
Qed.

Example leaderboard_ABC :
  fst (get_leaderboard world_ABC)
  = Returns [("A", 2%Z); ("B", 1%Z); ("C", 0%Z)].
Proof. vm_compute. reflexivity. Qed.

Example add_dup :
  fst (add_name ascii_strip ascii_lower "  b " "me" world_ABC)
  = Returns "⚠️ The name 'b' has already been submitted.".
Proof. vm_compute. reflexivity. Qed.

(** ** The vote ledger *)

Ltac run_cast :=
  unfold cast_votes, mbind, M_bind, mret, M_ret, datetime_now.

Lemma cast_votes_closed (sel : selection) (remaining : Z) (w : world) :
  datetime_ltb (clock w) VOTING_START = true ->
  cast_votes sel remaining w
  = (Returns (remaining,
              "⚠️ Voting is not open yet. Please come back after "
                +:+ strftime VOTING_START +:+ "."), w).
Proof. intros H. run_cast. by rewrite H. Qed.

(** What [cast_votes] does with a non-empty list of names once the gate is
    passed. *)
Lemma cast_votes_names (sel : selection) (names : list string)
    (remaining : Z) (w : world) :
  voting_open w ->
  names <> [] ->
  sel = SelList names \/ (exists s, sel = SelStr s /\ names = [s]) ->
  cast_votes sel remaining w
  = if (remaining <=? 0)%Z then
      (Returns (remaining, "⚠️ You have no votes remaining."), w)
    else if (Z.of_nat (length names) >? remaining)%Z then
      (Returns (remaining,
                "⚠️ You can only vote for " +:+ pretty remaining
                  +:+ " more name(s)."), w)
    else
      (Returns ((remaining - Z.of_nat (length names))%Z,
                (if (length names =? 1)%nat then "✅ Vote recorded!"
                 else "✅ Votes recorded!")
                +:+ (if (remaining - Z.of_nat (length names) >? 0)%Z then
                       " You have "
                         +:+ pretty (remaining - Z.of_nat (length names))%Z
                         +:+ " vote(s) left."
                     else " You have no votes left.")),
       written "votes.xlsx"
         (concat (default (empty_frame ["Name"]) (files w !! "votes.xlsx"))
                 (one_column "Name" (map CStr names))) w).
Proof.
  intros Hopen Hne Hsel. red in Hopen. run_cast. rewrite Hopen.
  destruct Hsel as [->|(s & -> & ->)].
  - destruct names as [|n names]; [done|].
    destruct (remaining <=? 0)%Z; [done|].
    destruct (Z.of_nat (length (n :: names)) >? remaining)%Z; [done|].
    unfold try_except, read_excel, to_excel, written.
    destruct (files w !! "votes.xlsx") as [df|]; simpl;
      by destruct (remaining - _ >? 0)%Z.
  - destruct (remaining <=? 0)%Z; [done|].
    destruct (Z.of_nat (length [s]) >? remaining)%Z; [done|].
    unfold try_except, read_excel, to_excel, written.
    destruct (files w !! "votes.xlsx") as [df|]; simpl;
      by destruct (remaining - _ >? 0)%Z.
Qed.

Lemma cast_votes_nothing_selected (sel : selection) (remaining : Z) (w : world) :
  voting_open w ->
  sel = SelNone \/ sel = SelList [] ->
  cast_votes sel remaining w
  = (Returns (remaining, "⚠️ No names selected. Please choose up to 3."), w).
Proof.
  intros Hopen Hsel. red in Hopen. run_cast. rewrite Hopen.
  by destruct Hsel as [->| ->].
Qed.

Lemma name_cells_written (names : list string) (w : world) :
  column (concat (default (empty_frame ["Name"]) (files w !! "votes.xlsx"))
                 (one_column "Name" (map CStr names))) "Name"
  = Some (name_cells "votes.xlsx" w ++ map CStr names).
Proof.
  rewrite column_concat by (right; simpl; by left).
  rewrite column_one_column. unfold name_cells.
  by destruct (files w !! "votes.xlsx").
Qed.

Lemma nrows_concat (a b : DataFrame) :
  nrows (concat a b) = nrows a + nrows b.
Proof.
  unfold nrows, concat, reindex. simpl.
  by rewrite length_app, !length_map.
Qed.

(** C1: at or after the opening instant, a non-empty list of names no longer
    than the positive remaining budget is recorded: the call returns, the
    votes file afterwards holds its former records followed by one record
    per selected name (in order, repeats included), the new budget is the
    old one minus the number of names, and the message is singular or plural
    as it should and tells what is left.  The two-name cast on a budget of
    three returns 1 and the expected text. *)
Theorem cast_votes_records (names : list string) (remaining : Z) (w : world) :
  voting_open w ->
  names <> [] ->
  (0 < remaining)%Z ->
  (Z.of_nat (length names) <= remaining)%Z ->
  (exists df,
     cast_votes (SelList names) remaining w
     = (Returns ((remaining - Z.of_nat (length names))%Z,
                 spec_success_message (length names)
                   (remaining - Z.of_nat (length names))),
        written "votes.xlsx" df w)
     /\ column df "Name"
        = Some (name_cells "votes.xlsx" w ++ map CStr names)
     /\ nrows df = length (name_cells "votes.xlsx" w) + length names)
  /\ (names = ["Alpha"; "Beta"] -> remaining = 3%Z ->
      fst (cast_votes (SelList names) remaining w)
      = Returns (1%Z, "✅ Votes recorded! You have 1 vote(s) left.")).
Proof.
  intros Hopen Hne Hpos Hle.
  pose proof (cast_votes_names (SelList names) names remaining w Hopen Hne
                (or_introl eq_refl)) as Hrun.
  destruct (Z.leb_spec remaining 0) as [?|_]; [lia|].
  destruct (Z.gtb_spec (Z.of_nat (length names)) remaining) as [?|_]; [lia|].
  split.
  - eexists. split; [|split].
    + rewrite Hrun. f_equal. f_equal. f_equal. unfold spec_success_message.
      f_equal.
      * destruct (Nat.eqb_spec (length names) 1), (decide (length names = 1));
          done.
      * destruct (Z.gtb_spec (remaining - Z.of_nat (length names)) 0),
          (decide (remaining - Z.of_nat (length names) = 0)%Z);
          try done; lia.
    + apply name_cells_written.
    + rewrite nrows_concat. unfold nrows, name_cells, one_column. simpl.
      rewrite !length_map.
      by destruct (files w !! "votes.xlsx"); simpl; rewrite ?length_map.
  - intros -> ->. by rewrite Hrun.
Qed.

Lemma cast_votes_records_witness :
  voting_open world_ABC /\
  fst (cast_votes (SelList ["Alpha"; "Beta"]) 3 world_ABC)
  = Returns (1%Z, "✅ Votes recorded! You have 1 vote(s) left.").
Proof.
  split; [reflexivity|].
  refine (proj2 (cast_votes_records ["Alpha"; "Beta"] 3 world_ABC _ _ _ _)
            eq_refl eq_refl).
  - reflexivity.
  - discriminate.
  - reflexivity.
  - simpl. lia.
Defined.

Lemma selected_nonempty (sel : selection) :
  ~ nothing_selected sel ->
  selected sel <> []
  /\ (sel = SelList (selected sel)
      \/ exists s, sel = SelStr s /\ selected sel = [s]).
Proof.
  unfold nothing_selected. intros Hsel.
  destruct sel as [|[|n names]|s]; simpl.
  - exfalso. apply Hsel. by left.
  - exfalso. apply Hsel. by right.
  - split; [done|by left].
  - split; [done|right; by exists s].
Qed.

(** C4: once voting is open the checks run in this order, the first that
    fails deciding: nothing selected; then no budget left; then more names
    than the budget.  Each declines with the budget and the files as they
    were and its own message, and with a budget of 0 every call is declined
    whatever is selected. *)
Theorem cast_votes_validation_order (sel : selection) (remaining : Z) (w : world) :
  voting_open w ->
  (nothing_selected sel ->
     cast_votes sel remaining w
     = (Returns (remaining, "⚠️ No names selected. Please choose up to 3."), w))
  /\ (~ nothing_selected sel -> (remaining <= 0)%Z ->
      cast_votes sel remaining w
      = (Returns (remaining, "⚠️ You have no votes remaining."), w))
  /\ (~ nothing_selected sel -> (0 < remaining)%Z ->
      (remaining < Z.of_nat (length (selected sel)))%Z ->
      cast_votes sel remaining w
      = (Returns (remaining,
                  "⚠️ You can only vote for " +:+ pretty remaining
                    +:+ " more name(s)."), w))
  /\ (remaining = 0%Z ->
      exists msg, cast_votes sel remaining w = (Returns (0%Z, msg), w)
                  /\ String.prefix "⚠️" msg = true).
Proof.
  intros Hopen.
  assert (Hbudget : ~ nothing_selected sel -> (remaining <= 0)%Z ->
      cast_votes sel remaining w
      = (Returns (remaining, "⚠️ You have no votes remaining."), w)).
  { intros Hsel Hle. destruct (selected_nonempty sel Hsel) as [Hne Hshape].
    rewrite (cast_votes_names sel (selected sel) remaining w Hopen Hne Hshape).
    by destruct (Z.leb_spec remaining 0); [|lia]. }
  split; [|split; [|split]].
  - by apply cast_votes_nothing_selected.
  - done.
  - intros Hsel Hpos Hlt. destruct (selected_nonempty sel Hsel) as [Hne Hshape].
    rewrite (cast_votes_names sel (selected sel) remaining w Hopen Hne Hshape).
    destruct (Z.leb_spec remaining 0); [lia|].
    by destruct (Z.gtb_spec (Z.of_nat (length (selected sel))) remaining); [|lia].
  - intros ->.
    assert (Hdec : nothing_selected sel \/ ~ nothing_selected sel).
    { unfold nothing_selected.
      destruct sel as [|[|n names]|s]; [left; by left|left; by right| |];
        right; intros [?|?]; discriminate. }
    destruct Hdec as [Hsel|Hsel].
    + eexists. split; [by apply cast_votes_nothing_selected|done].
    + eexists. split; [apply Hbudget; [done|lia]|done].
Qed.

Lemma cast_votes_validation_order_witness :
  voting_open after_open /\
  cast_votes (SelList ["Gamma"; "Delta"]) 1 after_open
  = (Returns (1%Z, "⚠️ You can only vote for 1 more name(s)."), after_open).
Proof.
  split; [reflexivity|].
  refine (proj1 (proj2 (proj2
    (cast_votes_validation_order (SelList ["Gamma"; "Delta"]) 1 after_open _)))
    _ _ _).
  - reflexivity.
  - intros [H|H]; discriminate H.
  - reflexivity.
  - reflexivity.
Defined.

(** C6: before the opening instant every call is declined at once, whatever
    the selection and the budget: the budget comes back unchanged, no file is
    touched, and the message carries the opening instant.  With a budget of 3
    and two names selected the budget stays 3. *)
Theorem cast_votes_before_opening (sel : selection) (remaining : Z) (w : world) :
  datetime_ltb (clock w) VOTING_START = true ->
  exists msg,
    cast_votes sel remaining w = (Returns (remaining, msg), w)
    /\ includes msg (strftime VOTING_START)
    /\ includes msg "2025-04-02 20:38:00".
Proof.
  intros Hearly. eexists. split; [by apply cast_votes_closed|].
  split.
  - by exists "⚠️ Voting is not open yet. Please come back after ", ".".
  - by exists "⚠️ Voting is not open yet. Please come back after ", ".".
Qed.

Lemma cast_votes_before_opening_witness :
  exists msg,
    cast_votes (SelList ["Alpha"; "Beta"]) 3 before_open
    = (Returns (3%Z, msg), before_open)
    /\ includes msg (strftime VOTING_START)
    /\ includes msg "2025-04-02 20:38:00".
Proof.
  apply (cast_votes_before_opening (SelList ["Alpha"; "Beta"]) 3 before_open).
  reflexivity.
Defined.

(** C7: with a budget that is not negative, every call returns a budget that
    is not negative either and not above the one it was given. *)
Theorem cast_votes_budget_bounds (sel : selection) (remaining : Z) (w : world) :
  (0 <= remaining)%Z ->
  exists new_remaining msg w',
    cast_votes sel remaining w = (Returns (new_remaining, msg), w')
    /\ (0 <= new_remaining <= remaining)%Z.
Proof.
  intros Hnonneg.
  destruct (datetime_ltb (clock w) VOTING_START) eqn:Hgate.
  { do 3 eexists. split; [by apply cast_votes_closed|lia]. }
  assert (Hdec : nothing_selected sel \/ ~ nothing_selected sel).
  { unfold nothing_selected.
    destruct sel as [|[|n names]|s]; [left; by left|left; by right| |];
      right; intros [?|?]; discriminate. }
  destruct Hdec as [Hsel|Hsel].
  { do 3 eexists. split; [by apply cast_votes_nothing_selected|lia]. }
  destruct (selected_nonempty sel Hsel) as [Hne Hshape].
  rewrite (cast_votes_names sel (selected sel) remaining w Hgate Hne Hshape).
  destruct (Z.leb_spec remaining 0).
  { do 3 eexists. split; [done|lia]. }
  destruct (Z.gtb_spec (Z.of_nat (length (selected sel))) remaining).
  { do 3 eexists. split; [done|lia]. }
  do 3 eexists. split; [done|lia].
Qed.

Lemma cast_votes_budget_bounds_witness :
  exists new_remaining msg w',
    cast_votes (SelList ["Alpha"; "Beta"; "Alpha"]) 3 after_open
    = (Returns (new_remaining, msg), w')
    /\ (0 <= new_remaining <= 3)%Z.
Proof.
  apply (cast_votes_budget_bounds (SelList ["Alpha"; "Beta"; "Alpha"]) 3 after_open).
  lia.
Defined.

(** ** The submission registry *)

Lemma cell_at_app (f : string -> cell) (cols more : list string)
    (r' : list cell) (c : string) :
  c ∈ cols -> cell_at (cols ++ more) (map f cols ++ r') c = f c.
Proof.
  induction cols as [|k cols IH]; intros Hin.
  - by apply not_elem_of_nil in Hin.
  - simpl. destruct (decide (k = c)) as [->|Hne]; [done|].
    apply IH. apply elem_of_cons in Hin as [Heq|Hin]; [congruence|done].
Qed.



Lemma ensure_column_cells (df : DataFrame) (col c : string) :
  c ∈ columns df ->
  map (fun r => cell_at (columns (ensure_column df col)) r c)
      (rows (ensure_column df col))
  = map (fun r => cell_at (columns df) r c) (rows df).
Proof.
  intros Hin. unfold ensure_column. destruct (has_column df col); [done|].
  unfold add_none_column, reindex. simpl. rewrite !map_map.
  apply map_ext. intros r. by rewrite cell_at_app.
Qed.




Section Registry.

Variable str_strip : string -> string.
Variable str_lower : string -> string.




End Registry.

(** ** Sorting, de-duplication and counting *)

Section StableSort.

Context {A : Type} (key : A -> Z).

Lemma insert_desc_perm (x : A) (l : list A) :
  insert_desc key x l ≡ₚ x :: l.
Proof.
  induction l as [|y l IH]; simpl; [done|].
  destruct (key x <? key y)%Z; [|done].
  rewrite IH. apply Permutation_swap.
Qed.

Lemma sort_reverse_perm (l : list A) : sort_reverse key l ≡ₚ l.
Proof.
  induction l as [|x l IH]; simpl; [done|].
  by rewrite insert_desc_perm, IH.
Qed.

Lemma insert_desc_sorted (x : A) (l : list A) :
  StronglySorted (fun a b => (key b <= key a)%Z) l ->
  StronglySorted (fun a b => (key b <= key a)%Z) (insert_desc key x l).
Proof.
  induction 1 as [|y l Hsorted IH Hall]; simpl.
  - repeat constructor.
  - destruct (Z.ltb_spec (key x) (key y)) as [Hlt|Hge].
    + constructor; [done|].
      rewrite insert_desc_perm. constructor; [lia|done].
    + constructor; [by constructor|].
      constructor; [done|].
      eapply Forall_impl; [exact Hall|]. simpl. intros z Hz. lia.
Qed.

Lemma sort_reverse_sorted (l : list A) :
  StronglySorted (fun a b => (key b <= key a)%Z) (sort_reverse key l).
Proof.
  induction l as [|x l IH]; simpl; [constructor|].
  by apply insert_desc_sorted.
Qed.

(** Stability: among the elements of one key, the order is the one they
    came in. *)
Lemma insert_desc_stable (k : Z) (x : A) (l : list A) :
  filter (fun a => key a = k) (insert_desc key x l)
  = filter (fun a => key a = k) (x :: l).
Proof.
  induction l as [|y l IH]; simpl; [done|].
  destruct (Z.ltb_spec (key x) (key y)) as [Hlt|Hge]; [|done].
  rewrite (filter_cons _ y), IH, !filter_cons.
  destruct (decide (key y = k)), (decide (key x = k)); try done; lia.
Qed.

Lemma sort_reverse_stable (k : Z) (l : list A) :
  filter (fun a => key a = k) (sort_reverse key l)
  = filter (fun a => key a = k) l.
Proof.
  induction l as [|x l IH]; simpl; [done|].
  by rewrite insert_desc_stable, !filter_cons, IH.
Qed.

End StableSort.

Lemma first_seen_elem {A} `{EqDecision A} (seen l : list A) (x : A) :
  x ∈ first_seen seen l <-> x ∈ l /\ x ∉ seen.
Proof.
  revert seen. induction l as [|y l IH]; intros seen; simpl.
  - split; [by intros ?%not_elem_of_nil|by intros [?%not_elem_of_nil _]].
  - destruct (decide (y ∈ seen)) as [Hin|Hnin].
    + rewrite IH, elem_of_cons. split; [tauto|].
      intros [[-> | ?] ?]; tauto.
    + rewrite !elem_of_cons, IH, elem_of_cons. split.
      * intros [-> | [? ?]]; tauto.
      * intros [[-> | ?] ?]; [by left|].
        destruct (decide (x = y)) as [->|]; [by left|right; tauto].
Qed.

Lemma unique_elem {A} `{EqDecision A} (l : list A) (x : A) :
  x ∈ unique l <-> x ∈ l.
Proof.
  unfold unique. rewrite first_seen_elem. split; [tauto|].
  intros ?. split; [done|apply not_elem_of_nil].
Qed.

Lemma first_seen_NoDup {A} `{EqDecision A} (seen l : list A) :
  NoDup (first_seen seen l).
Proof.
  revert seen. induction l as [|y l IH]; intros seen; simpl.
  - constructor.
  - destruct (decide (y ∈ seen)); [done|].
    constructor; [|done]. rewrite first_seen_elem.
    intros [_ Hnin]. apply Hnin. by left.
Qed.

(** De-duplicating a series of strings and reading the strings off commute. *)
Lemma first_seen_CStr (seen l : list string) :
  str_values (first_seen (map CStr seen) (map CStr l)) = first_seen seen l.
Proof.
  revert seen. induction l as [|y l IH]; intros seen; simpl; [done|].
  destruct (decide (CStr y ∈ map CStr seen)) as [Hin|Hnin],
           (decide (y ∈ seen)) as [Hin'|Hnin'].
  - apply IH.
  - exfalso. apply Hnin'. apply list_elem_of_fmap in Hin as (z & Heq & Hz).
    by injection Heq as ->.
  - exfalso. apply Hnin. by apply list_elem_of_fmap_2.
  - unfold str_values. simpl. f_equal. apply (IH (y :: seen)).
Qed.

Lemma astype_str_texts (s : Series) :
  astype_str s = map CStr (map str_of_cell s).
Proof. unfold astype_str. by rewrite map_map. Qed.

Lemma str_values_CStr (l : list string) : str_values (map CStr l) = l.
Proof.
  unfold str_values. induction l as [|x l IH]; [done|].
  simpl. by f_equal.
Qed.

(** After [astype(str)] nothing is missing, so [dropna] keeps everything. *)
Lemma dropna_astype_str (s : Series) : dropna (astype_str s) = astype_str s.
Proof.
  unfold dropna, astype_str. induction s as [|c s IH]; [done|].
  rewrite map_cons, filter_cons_True by done. by f_equal.
Qed.

Lemma value_counts_texts (l : list string) (n : string) :
  default 0%Z (value_counts (map CStr l) !! n)
  = Z.of_nat (length (filter (fun v => v = n) l)).
Proof.
  induction l as [|x l IH]; simpl; [done|].
  rewrite filter_cons. destruct (decide (x = n)) as [->|Hne].
  - rewrite lookup_insert_eq. simpl. rewrite IH. lia.
  - by rewrite lookup_insert_ne.
Qed.

(** ** The leaderboard *)

(** The loop that appends the voted names not among [all_names]. *)
Lemma orphan_loop (count : string -> Z) (all_names names : list string)
    (data : list row) :
  foldl (fun data name =>
           if bool_decide (name ∈ all_names) then data
           else data ++ [(name, count name)]) data names
  = data ++ map (fun n => (n, count n))
                (filter (fun n => n ∉ all_names) names).
Proof.
  revert data. induction names as [|n names IH]; intros data; simpl.
  - by rewrite app_nil_r.
  - rewrite IH, filter_cons. case_bool_decide as Hin.
    + by rewrite decide_False by tauto.
    + rewrite decide_True by done. simpl. by rewrite <- app_assoc.
Qed.

Lemma column_has (df : DataFrame) (c : string) :
  has_column df c = true -> exists s, column df c = Some s.
Proof. intros H. eexists. by apply column_present. Qed.

Lemma column_lacks (df : DataFrame) (c : string) :
  has_column df c = false -> column df c = None.
Proof. intros H. unfold column. by rewrite H. Qed.

Lemma column_of_empty (df : DataFrame) (c : string) (s : Series) :
  frame_empty df = true -> column df c = Some s -> s = [].
Proof.
  unfold frame_empty, column. intros Hempty Hcol.
  destruct (has_column df c) eqn:Hhas; [|done].
  injection Hcol as <-. apply orb_true_iff in Hempty as [H|H].
  - apply bool_decide_eq_true in H. apply has_column_true in Hhas.
    rewrite H in Hhas. by apply not_elem_of_nil in Hhas.
  - apply bool_decide_eq_true in H. by rewrite H.
Qed.

Lemma try_read_excel (path : string) (cols : list string) (w : world) :
  try_except (read_excel path) (mret (empty_frame cols)) w
  = (Returns (default (empty_frame cols) (files w !! path)), w).
Proof.
  unfold try_except, read_excel. by destruct (files w !! path).
Qed.

Lemma column_texts_frame (path : string) (w : world) :
  column_texts path w
  = map str_of_cell
      (default [] (column (default (empty_frame ["Name"]) (files w !! path))
                          "Name")).
Proof. unfold column_texts. by destruct (files w !! path). Qed.

Lemma unique_CStr (l : list string) :
  str_values (unique (map CStr l)) = unique l.
Proof. exact (first_seen_CStr [] l). Qed.

(** The table built by the two loops, on the texts of the two columns. *)
Lemma leaderboard_rows (subs votes : list string) :
  foldl (fun (data : list row) name =>
           if bool_decide (name ∈ unique subs) then data
           else data ++ [(name, default 0%Z (value_counts (map CStr votes) !! name))])
        (map (fun name => (name, default 0%Z (value_counts (map CStr votes) !! name)))
             (unique subs))
        (unique votes)
  = map (fun n => (n, Z.of_nat (length (filter (fun v => v = n) votes))))
        (unique subs)
    ++ map (fun n => (n, Z.of_nat (length (filter (fun v => v = n) votes))))
           (filter (fun n => n ∉ subs) (unique votes)).
Proof.
  rewrite (orphan_loop
             (fun n => default 0%Z (value_counts (map CStr votes) !! n))).
  rewrite (list_filter_iff (fun n => n ∉ unique subs) (fun n => n ∉ subs))
    by (intros n; by rewrite unique_elem).
  f_equal; apply map_ext; intros n; by rewrite value_counts_texts.
Qed.

(** [get_leaderboard] always returns, leaves the world alone, and what it
    returns is the stable sort, by decreasing votes, of the rows in order. *)
Lemma get_leaderboard_run (w : world) :
  get_leaderboard w = (Returns (sort_reverse snd (rows_in_order w)), w).
Proof.
  unfold rows_in_order, votes_for. rewrite !column_texts_frame.
  unfold get_leaderboard, mbind, M_bind.
  rewrite try_read_excel. cbv beta iota. rewrite try_read_excel.
  generalize (default (empty_frame ["Name"]) (files w !! "votes.xlsx")).
  generalize (default (empty_frame ["Name"]) (files w !! "submissions.xlsx")).
  intros sub_df votes_df. unfold getitem, mret, M_ret.
  destruct (has_column sub_df "Name") eqn:Hsub;
    [rewrite (column_present _ _ Hsub); set (cells1 := map _ (rows sub_df))
    |rewrite (column_lacks _ _ Hsub)];
    cbv beta iota; simpl default;
    rewrite ?dropna_astype_str, ?astype_str_texts, ?str_values_CStr.
  all: destruct (has_column votes_df "Name") eqn:Hvotes;
    [destruct (column_has _ _ Hvotes) as [cells Hcells]; rewrite Hcells;
     destruct (frame_empty votes_df) eqn:Hempty;
     [rewrite (column_of_empty _ _ _ Hempty Hcells)|]
    |rewrite (column_lacks _ _ Hvotes)];
    cbn [andb negb]; cbv beta iota; simpl default.
  all: try by rewrite !astype_str_texts, unique_CStr, leaderboard_rows.
  all: simpl; rewrite ?app_nil_r; by do 3 f_equal.
Qed.

(** C3: the code turns the names into text before it drops the missing
    ones, so nothing is dropped: a submission whose name is missing gives
    the leaderboard a row named nan. *)
Theorem missing_name_yields_row :
  (forall s : Series, dropna (astype_str s) = astype_str s)
  /\ name_cells "submissions.xlsx" world_missing_name = [CStr "Alpha"; CNaN]
  /\ fst (get_leaderboard world_missing_name)
     = Returns [("Alpha", 0%Z); ("nan", 0%Z)].
Proof.
  split; [exact dropna_astype_str|]. split; by vm_compute.
Qed.

Lemma column_texts_written_same (path : string) (w : world) :
  column_texts path (written path (empty_frame ["Name"]) w) = [].
Proof.
  unfold column_texts, written. simpl. by rewrite lookup_insert_eq.
Qed.

Lemma column_texts_written_other (path path' : string) (df : DataFrame)
    (w : world) :
  path <> path' ->
  column_texts path' (written path df w) = column_texts path' w.
Proof.
  intros Hne. unfold column_texts, written. simpl.
  by rewrite lookup_insert_ne.
Qed.

Lemma column_texts_unreadable (path : string) (w : world) :
  files w !! path = None -> column_texts path w = [].
Proof. intros H. unfold column_texts. by rewrite H. Qed.

(** C8: [get_leaderboard] never raises.  Where a file cannot be read the
    table is the one an empty file with a [Name] column would give, and with
    neither file readable it has no rows. *)
Theorem get_leaderboard_never_raises (w : world) :
  (exists table, get_leaderboard w = (Returns table, w))
  /\ (files w !! "submissions.xlsx" = None ->
      fst (get_leaderboard w)
      = fst (get_leaderboard
               (written "submissions.xlsx" (empty_frame ["Name"]) w)))
  /\ (files w !! "votes.xlsx" = None ->
      fst (get_leaderboard w)
      = fst (get_leaderboard (written "votes.xlsx" (empty_frame ["Name"]) w)))
  /\ (files w !! "submissions.xlsx" = None ->
      files w !! "votes.xlsx" = None ->
      get_leaderboard w = (Returns [], w)).
Proof.
  split; [eexists; apply get_leaderboard_run|].
  rewrite !get_leaderboard_run. simpl.
  unfold rows_in_order, votes_for. repeat split.
  - intros Hsub.
    rewrite column_texts_written_same, column_texts_written_other by done.
    by rewrite (column_texts_unreadable _ _ Hsub).
  - intros Hvotes.
    rewrite column_texts_written_same, column_texts_written_other by done.
    by rewrite (column_texts_unreadable _ _ Hvotes).
  - intros Hsub Hvotes.
    by rewrite (column_texts_unreadable _ _ Hsub),
               (column_texts_unreadable _ _ Hvotes).
Qed.

Lemma get_leaderboard_never_raises_witness :
  get_leaderboard after_open = (Returns [], after_open).
Proof.
  apply (proj2 (proj2 (proj2 (get_leaderboard_never_raises after_open))));
    reflexivity.
Defined.

(** C10: in every table [get_leaderboard] returns, a row whose name is not
    among the submitted names has at least one vote, so a row with no votes
    belongs to a submitted name. *)
Theorem orphan_rows_have_votes (w : world) :
  exists table,
    get_leaderboard w = (Returns table, w)
    /\ forall (n : string) (c : Z),
         (n, c) ∈ table ->
         (n ∉ column_texts "submissions.xlsx" w -> (1 <= c)%Z)
         /\ (c = 0%Z -> n ∈ column_texts "submissions.xlsx" w).
Proof.
  eexists. split; [apply get_leaderboard_run|].
  intros n c Hin. rewrite sort_reverse_perm in Hin.
  unfold rows_in_order in Hin. apply elem_of_app in Hin as [Hin|Hin].
  - apply list_elem_of_fmap in Hin as (m & Heq & Hm).
    injection Heq as -> ->. rewrite unique_elem in Hm.
    split; [intros Hnew; by destruct Hnew|done].
  - apply list_elem_of_fmap in Hin as (m & Heq & Hm).
    injection Heq as -> ->.
    apply list_elem_of_filter in Hm as [Hnew Hm]. rewrite unique_elem in Hm.
    assert (Hvotes : (1 <= votes_for w m)%Z).
    { unfold votes_for.
      assert (Hf : m ∈ filter (fun v => v = m) (column_texts "votes.xlsx" w))
        by (by apply list_elem_of_filter).
      destruct (filter _ _); [by apply not_elem_of_nil in Hf|simpl; lia]. }
    split; [done|]. intros Hzero. lia.
Qed.

Example three_clicks_run :
  fst (vote_clicks three_clicks initial_votes_state world_ABC) = Returns 0%Z.
Proof. by vm_compute. Qed.

Example refresh_missing :
  fst (refresh_name_list world_missing_name)
  = Returns (mk_update ["Alpha"; "nan"] []).
Proof. by vm_compute. Qed.

(** ** More on the vote ledger *)

Lemma name_cells_of_written (path : string) (df : DataFrame) (s : Series)
    (w : world) :
  column df "Name" = Some s -> name_cells path (written path df w) = s.
Proof.
  intros Hcol. unfold name_cells, written. simpl. rewrite lookup_insert_eq.
  unfold column in Hcol. destruct (has_column df "Name"); [|done].
  by injection Hcol.
Qed.

Lemma name_cells_clock (path : string) (now : datetime) (w : world) :
  name_cells path (mk_world now (files w)) = name_cells path w.
Proof. done. Qed.

(** The two ways a call ends: declined, with the budget and the world as
    they were; or recorded, with the votes file written back. *)
Lemma cast_votes_cases (sel : selection) (remaining : Z) (w : world) :
  (exists msg, cast_votes sel remaining w = (Returns (remaining, msg), w))
  \/ (exists msg,
        voting_open w /\ selected sel <> []
        /\ (0 < remaining)%Z
        /\ (Z.of_nat (length (selected sel)) <= remaining)%Z
        /\ cast_votes sel remaining w
           = (Returns ((remaining - Z.of_nat (length (selected sel)))%Z, msg),
              written "votes.xlsx"
                (concat (default (empty_frame ["Name"])
                                 (files w !! "votes.xlsx"))
                        (one_column "Name" (map CStr (selected sel)))) w)).
Proof.
  destruct (datetime_ltb (clock w) VOTING_START) eqn:Hgate.
  { left. eexists. by apply cast_votes_closed. }
  assert (Hdec : nothing_selected sel \/ ~ nothing_selected sel).
  { unfold nothing_selected.
    destruct sel as [|[|n names]|s]; [left; by left|left; by right| |];
      right; intros [?|?]; discriminate. }
  destruct Hdec as [Hsel|Hsel].
  { left. eexists. by apply cast_votes_nothing_selected. }
  destruct (selected_nonempty sel Hsel) as [Hne Hshape].
  rewrite (cast_votes_names sel (selected sel) remaining w Hgate Hne Hshape).
  destruct (Z.leb_spec remaining 0); [left; by eexists|].
  destruct (Z.gtb_spec (Z.of_nat (length (selected sel))) remaining);
    [left; by eexists|].
  right. eexists. by repeat split.
Qed.

(** X1: in one call, whatever the selection, the budget and the state of
    the files, [cast_votes] leaves the clock and every file but the votes
    file alone; the table it hands to the writer, when it writes, is the
    table it read followed by new records, never a shorter or an altered
    one; and the budget it returns is the one it was given minus the number
    of records it added (the same budget when it writes nothing). *)
Theorem cast_votes_pays_per_record (sel : selection) (remaining : Z) (w : world) :
  exists new_remaining msg w' cast,
    cast_votes sel remaining w = (Returns (new_remaining, msg), w')
    /\ clock w' = clock w
    /\ (forall path, path <> "votes.xlsx" -> files w' !! path = files w !! path)
    /\ name_cells "votes.xlsx" w' = name_cells "votes.xlsx" w ++ map CStr cast
    /\ new_remaining = (remaining - Z.of_nat (length cast))%Z.
Proof.
  destruct (cast_votes_cases sel remaining w)
    as [[msg Hrun]|(msg & _ & _ & _ & _ & Hrun)].
  - exists remaining, msg, w, []. rewrite app_nil_r. simpl.
    repeat split; [done|lia].
  - do 2 eexists. exists (written "votes.xlsx"
      (concat (default (empty_frame ["Name"]) (files w !! "votes.xlsx"))
              (one_column "Name" (map CStr (selected sel)))) w), (selected sel).
    split; [exact Hrun|]. split; [done|]. split; [|split; [|done]].
    + intros path Hne. unfold written. simpl. by rewrite lookup_insert_ne.
    + apply name_cells_of_written, name_cells_written.
Qed.

(** X2: what [cast_votes] returns does not depend on the submissions file,
    which it neither reads nor writes: a vote for a name nobody submitted is
    treated like any other. *)
Theorem cast_votes_ignores_submissions (sel : selection) (remaining : Z)
    (df : DataFrame) (w : world) :
  cast_votes sel remaining (written "submissions.xlsx" df w)
  = ((cast_votes sel remaining w).1,
     written "submissions.xlsx" df (cast_votes sel remaining w).2).
Proof.
  assert (Hopen : voting_open (written "submissions.xlsx" df w)
                  <-> voting_open w) by done.
  assert (Hfile : files (written "submissions.xlsx" df w) !! "votes.xlsx"
                  = files w !! "votes.xlsx").
  { unfold written. simpl. by rewrite lookup_insert_ne. }
  destruct (datetime_ltb (clock w) VOTING_START) eqn:Hgate.
  { by rewrite !cast_votes_closed. }
  assert (Hdec : nothing_selected sel \/ ~ nothing_selected sel).
  { unfold nothing_selected.
    destruct sel as [|[|n names]|s]; [left; by left|left; by right| |];
      right; intros [?|?]; discriminate. }
  destruct Hdec as [Hsel|Hsel].
  { by rewrite !cast_votes_nothing_selected. }
  destruct (selected_nonempty sel Hsel) as [Hne Hshape].
  rewrite !(cast_votes_names sel (selected sel) remaining) by done.
  rewrite Hfile.
  destruct (remaining <=? 0)%Z; [done|].
  destruct (Z.of_nat (length (selected sel)) >? remaining)%Z; [done|].
  simpl. f_equal. unfold written. simpl. f_equal.
  by apply insert_insert_ne.
Qed.

Lemma vote_clicks_step (now : datetime) (sel : selection)
    (rest : list (datetime * selection)) (votes_state : Z) (w : world) :
  vote_clicks ((now, sel) :: rest) votes_state w
  = match cast_votes sel votes_state (mk_world now (files w)) with
    | (Returns result, w') => vote_clicks rest result.1 w'
    | (Raises, w') => (Raises, w')
    end.
Proof. done. Qed.

Lemma vote_clicks_budget (clicks : list (datetime * selection)) :
  forall (votes_state : Z) (w : world),
    (0 <= votes_state)%Z ->
    exists final w' cast,
      vote_clicks clicks votes_state w = (Returns final, w')
      /\ (0 <= final <= votes_state)%Z
      /\ name_cells "votes.xlsx" w' = name_cells "votes.xlsx" w ++ map CStr cast
      /\ Z.of_nat (length cast) = (votes_state - final)%Z
      /\ (forall path, path <> "votes.xlsx" ->
            files w' !! path = files w !! path).
Proof.
  induction clicks as [|[now sel] rest IH]; intros votes_state w Hnonneg.
  - exists votes_state, w, []. rewrite app_nil_r. simpl.
    split; [done|]. split; [lia|]. split; [done|]. split; [lia|done].
  - rewrite vote_clicks_step.
    set (w1 := mk_world now (files w)).
    destruct (cast_votes_cases sel votes_state w1)
      as [[msg Hrun]|(msg & _ & _ & Hpos & Hle & Hrun)]; rewrite Hrun.
    + destruct (IH votes_state w1 Hnonneg)
        as (final & w' & cast & Hrest & Hbound & Hcells & Hlen & Hother).
      exists final, w', cast.
      split; [exact Hrest|]. split; [exact Hbound|].
      split; [exact Hcells|]. split; [exact Hlen|exact Hother].
    + set (w2 := written "votes.xlsx" _ w1).
      destruct (IH (votes_state - Z.of_nat (length (selected sel)))%Z w2)
        as (final & w' & cast & Hrest & Hbound & Hcells & Hlen & Hother);
        [lia|].
      exists final, w', (selected sel ++ cast). simpl in Hrest.
      split; [exact Hrest|]. split; [lia|]. split; [|split].
      * rewrite Hcells. subst w2.
        rewrite (name_cells_of_written _ _ _ _ (name_cells_written _ w1)).
        by rewrite map_app, app_assoc.
      * rewrite length_app. lia.
      * intros path Hne. rewrite (Hother path Hne). subst w2 w1.
        unfold written. simpl. by rewrite lookup_insert_ne.
Qed.

(** ** More on the leaderboard *)

(** The names of the rows, in build order. *)
Lemma rows_in_order_names (w : world) :
  rows_in_order w
  = map (fun n => (n, votes_for w n))
        (unique (column_texts "submissions.xlsx" w)
         ++ filter (fun n => n ∉ column_texts "submissions.xlsx" w)
                   (unique (column_texts "votes.xlsx" w))).
Proof. unfold rows_in_order. by rewrite map_app. Qed.

Lemma row_names_NoDup (subs votes : list string) :
  NoDup (unique subs ++ filter (fun n => n ∉ subs) (unique votes)).
Proof.
  apply NoDup_app. split; [apply first_seen_NoDup|]. split.
  - intros n Hin Hin'. rewrite unique_elem in Hin.
    apply list_elem_of_filter in Hin' as [Hnot _]. by apply Hnot.
  - apply NoDup_filter, first_seen_NoDup.
Qed.

Lemma row_names_elem (subs votes : list string) (n : string) :
  n ∈ unique subs ++ filter (fun n => n ∉ subs) (unique votes)
  <-> n ∈ subs \/ n ∈ votes.
Proof.
  rewrite elem_of_app, list_elem_of_filter, !unique_elem. split.
  - intros [?|[_ ?]]; [by left|by right].
  - intros [?|?]; [by left|].
    destruct (decide (n ∈ subs)); [by left|by right].
Qed.

Lemma map_fst_rows (f : string -> Z) (names : list string) :
  map fst (map (fun n => (n, f n)) names) = names.
Proof. rewrite map_map. simpl. apply map_id. Qed.

(** X4: the table has one row per name and no more: no name comes twice, a
    name has a row exactly when a submission or a vote carries it, and the
    votes of a row are the number of vote records carrying its name. *)
Theorem leaderboard_one_row_per_name (w : world) :
  exists table,
    get_leaderboard w = (Returns table, w)
    /\ NoDup (map fst table)
    /\ (forall n, n ∈ map fst table
                  <-> n ∈ column_texts "submissions.xlsx" w
                      \/ n ∈ column_texts "votes.xlsx" w)
    /\ (forall n c, (n, c) ∈ table -> c = votes_for w n).
Proof.
  eexists. split; [apply get_leaderboard_run|].
  assert (Hnames : map fst (sort_reverse snd (rows_in_order w))
                   ≡ₚ unique (column_texts "submissions.xlsx" w)
                      ++ filter (fun n => n ∉ column_texts "submissions.xlsx" w)
                                (unique (column_texts "votes.xlsx" w))).
  { rewrite sort_reverse_perm, rows_in_order_names. by rewrite map_fst_rows. }
  split; [|split].
  - rewrite Hnames. apply row_names_NoDup.
  - intros n. rewrite Hnames. apply row_names_elem.
  - intros n c Hin. rewrite sort_reverse_perm, rows_in_order_names in Hin.
    apply list_elem_of_fmap in Hin as (m & Heq & _). by injection Heq as -> ->.
Qed.

Lemma total_votes_perm (l1 l2 : list row) :
  l1 ≡ₚ l2 -> total_votes l1 = total_votes l2.
Proof.
  induction 1 as [|r l1 l2 _ IH|r1 r2 l|l1 l2 l3 _ IH1 _ IH2]; simpl.
  - done.
  - by rewrite IH.
  - lia.
  - by rewrite IH1.
Qed.

Lemma total_votes_sum (f g : string -> Z) (names : list string) :
  total_votes (map (fun n => (n, (f n + g n)%Z)) names)
  = (total_votes (map (fun n => (n, f n)) names)
     + total_votes (map (fun n => (n, g n)) names))%Z.
Proof. induction names as [|n names IH]; simpl; [done|]. rewrite IH. lia. Qed.

Lemma total_votes_zero (names : list string) :
  total_votes (map (fun n => (n, 0%Z)) names) = 0%Z.
Proof. induction names as [|n names IH]; simpl; [done|]. by rewrite IH. Qed.

(** A name on a list without repeats is met exactly once. *)
Lemma total_votes_once (v : string) (names : list string) :
  NoDup names ->
  total_votes (map (fun n => (n, if decide (v = n) then 1%Z else 0%Z)) names)
  = if decide (v ∈ names) then 1%Z else 0%Z.
Proof.
  induction 1 as [|n names Hnot _ IH]; simpl; [done|].
  rewrite IH. destruct (decide (v = n)) as [->|Hne].
  - rewrite decide_False by done. rewrite decide_True by (by left). lia.
  - destruct (decide (v ∈ names)) as [Hin|Hnin].
    + rewrite decide_True by (by right). lia.
    + rewrite decide_False; [lia|].
      intros [?|?]%elem_of_cons; [by apply Hne|by apply Hnin].
Qed.

Lemma total_votes_counts (votes names : list string) :
  NoDup names ->
  (forall v, v ∈ votes -> v ∈ names) ->
  total_votes
    (map (fun n => (n, Z.of_nat (length (filter (fun v => v = n) votes))))
         names)
  = Z.of_nat (length votes).
Proof.
  intros Hnodup. induction votes as [|v votes IH]; intros Hcover.
  - simpl. apply total_votes_zero.
  - transitivity
      (total_votes
         (map (fun n => (n, ((if decide (v = n) then 1 else 0)
                             + Z.of_nat (length (filter (fun v => v = n) votes)))%Z))
              names)).
    { f_equal. apply map_ext. intros n. f_equal. rewrite filter_cons.
      destruct (decide (v = n)); simpl; lia. }
    rewrite total_votes_sum, total_votes_once by done.
    rewrite IH by (intros u Hu; apply Hcover; by right).
    rewrite decide_True by (apply Hcover; by left). simpl. lia.
Qed.

(** X5: no vote is lost and none is counted twice: the votes of all rows
    add up to the number of records in the [Name] column of the votes
    file. *)
Theorem leaderboard_counts_every_vote (w : world) :
  exists table,
    get_leaderboard w = (Returns table, w)
    /\ total_votes table
       = Z.of_nat (length (column_texts "votes.xlsx" w)).
Proof.
  eexists. split; [apply get_leaderboard_run|].
  rewrite (total_votes_perm _ _ (sort_reverse_perm snd (rows_in_order w))).
  rewrite rows_in_order_names. unfold votes_for.
  apply total_votes_counts; [apply row_names_NoDup|].
  intros v Hv. apply row_names_elem. by right.
Qed.

Lemma refresh_name_list_run (w : world) :
  refresh_name_list w
  = (Returns (mk_update (column_texts "submissions.xlsx" w) []), w).
Proof.
  unfold refresh_name_list, column_texts, mbind, M_bind, try_except,
    read_excel, getitem, mret, M_ret.
  destruct (files w !! "submissions.xlsx") as [df|]; [|done].
  destruct (column df "Name") as [names|]; [|done]. simpl.
  by rewrite dropna_astype_str, astype_str_texts, str_values_CStr.
Qed.

(** X8: refreshing the choices never raises and writes nothing, also when
    the submissions file cannot be read or has no [Name] column (no choices
    then); it unticks everything; and it offers the text of every [Name]
    value in file order, repeats and missing names (as nan) included, each
    of which has its row on the leaderboard. *)
Theorem refresh_offers_the_submissions (w : world) :
  exists u table,
    refresh_name_list w = (Returns u, w)
    /\ get_leaderboard w = (Returns table, w)
    /\ value u = []
    /\ choices u = column_texts "submissions.xlsx" w
    /\ (files w !! "submissions.xlsx" = None -> choices u = [])
    /\ (forall n, n ∈ choices u -> n ∈ map fst table).
Proof.
  do 2 eexists. split; [apply refresh_name_list_run|].
  split; [apply get_leaderboard_run|]. simpl.
  split; [done|]. split; [done|]. split.
  - apply column_texts_unreadable.
  - intros n Hn. rewrite sort_reverse_perm, rows_in_order_names, map_fst_rows.
    apply row_names_elem. by left.
Qed.

(** ** More on the submission registry *)

Section RegistryAndViews.

Variable str_strip : string -> string.
Variable str_lower : string -> string.


End RegistryAndViews.

(** ** De-duplication against the specification's wording *)

Lemma first_seen_spec (seen l : list string) :
  first_seen seen l = filter (fun y => y ∉ seen) (spec_first_seen l).
Proof.
  revert seen. induction l as [|x l IH]; intros seen; simpl; [done|].
  rewrite filter_cons, list_filter_filter.
  destruct (decide (x ∈ seen)) as [Hin|Hnin].
  - rewrite decide_False by tauto. rewrite IH.
    apply list_filter_iff. intros y. split; [|tauto].
    intros Hy. split; [done|]. intros ->. by apply Hy.
  - rewrite decide_True by done. f_equal. rewrite IH.
    apply list_filter_iff. intros y. rewrite elem_of_cons. split.
    + intros Hy. split; [tauto|]. intros ->. apply Hy. by left.
    + intros [Hy Hne] [->|Hin]; [by apply Hne|by apply Hy].
Qed.

(** The program's de-duplication is the specification's. *)
Lemma unique_spec (l : list string) : unique l = spec_first_seen l.
Proof.
  unfold unique. rewrite first_seen_spec.
  induction (spec_first_seen l) as [|x k IH]; [done|].
  rewrite filter_cons_True by apply not_elem_of_nil. by f_equal.
Qed.

Lemma rows_in_order_spec (w : world) :
  rows_in_order w = spec_rows_in_order w.
Proof. unfold rows_in_order, spec_rows_in_order. by rewrite !unique_spec. Qed.

(** C2: [get_leaderboard] returns the rows by decreasing votes, rows with
    the same votes staying in the order they were built in: the submitted
    names, de-duplicated in first-seen order (a name stays where it is first
    seen, its later repeats go), then the voted names that were never
    submitted, in the order the votes first mention them.  No name has two
    rows.  Submissions A, B, C with two votes for A and one for B give
    (A,2), (B,1), (C,0); an orphan Z tied with A comes after it; and with
    submissions B, A, B, C, A and votes Z, A, Z, A, Y the rows are
    (A,2), (Z,2), (Y,1), (B,0), (C,0). *)
Theorem get_leaderboard_sorted_stable (w : world) :
  exists table,
    get_leaderboard w = (Returns table, w)
    /\ table ≡ₚ spec_rows_in_order w
    /\ StronglySorted (fun a b : row => (b.2 <= a.2)%Z) table
    /\ (forall k : Z,
          filter (fun r : row => r.2 = k) table
          = filter (fun r : row => r.2 = k) (spec_rows_in_order w))
    /\ NoDup (map fst table)
    /\ fst (get_leaderboard world_ABC)
       = Returns [("A", 2%Z); ("B", 1%Z); ("C", 0%Z)]
    /\ fst (get_leaderboard world_orphan)
       = Returns [("A", 1%Z); ("Z", 1%Z); ("B", 0%Z)]
    /\ fst (get_leaderboard world_repeats)
       = Returns [("A", 2%Z); ("Z", 2%Z); ("Y", 1%Z); ("B", 0%Z); ("C", 0%Z)].
Proof.
  exists (sort_reverse snd (rows_in_order w)).
  split; [apply get_leaderboard_run|].
  split; [rewrite <- rows_in_order_spec; apply sort_reverse_perm|].
  split; [apply (sort_reverse_sorted snd)|].
  split; [intros k; rewrite <- rows_in_order_spec;
          apply (sort_reverse_stable snd)|].
  split.
  { rewrite sort_reverse_perm, rows_in_order_names, map_fst_rows.
    apply row_names_NoDup. }
  repeat split; by vm_compute.
Qed.

(** ** Where the registry and the ledger go wrong *)

(** C5: [add_name] compares the new name with the text [astype(str)] makes
    of whatever the [Name] column holds, not with the names stored.  With
    submissions Alpha and a record whose name is missing, the name NaN is
    declined as already submitted although no stored name is nan in any
    case; and where the one stored name NA has been read back as a missing
    value, NA is accepted again and goes into the table a second time. *)
Theorem add_name_compares_texts :
  str_values (name_cells "submissions.xlsx" world_missing_name) = ["Alpha"]
  /\ add_name ascii_strip ascii_lower "NaN" "x" world_missing_name
     = (Returns "⚠️ The name 'NaN' has already been submitted.",
        world_missing_name)
  /\ name_cells "submissions.xlsx" world_NA_read_back = [CNaN]
  /\ exists msg w',
       add_name ascii_strip ascii_lower "NA" "y" world_NA_read_back
       = (Returns msg, w')
       /\ String.prefix "✅" msg = true
       /\ name_cells "submissions.xlsx" w' = [CNaN; CStr "NA"].
Proof.
  split; [by vm_compute|]. split; [by vm_compute|]. split; [by vm_compute|].
  do 2 eexists. split; [by vm_compute|]. split; by vm_compute.
Qed.


(** ** The session budget *)

(** What [cast_votes] returns depends on the clock, the selection and the
    budget, not on the files. *)
Lemma cast_votes_result_clock (sel : selection) (remaining : Z)
    (w1 w2 : world) :
  clock w1 = clock w2 ->
  (cast_votes sel remaining w1).1 = (cast_votes sel remaining w2).1.
Proof.
  intros Hclock.
  destruct (datetime_ltb (clock w1) VOTING_START) eqn:Hgate.
  { rewrite !cast_votes_closed; [done| |done]. by rewrite <- Hclock. }
  assert (Hgate2 : voting_open w2) by (red; by rewrite <- Hclock).
  assert (Hdec : nothing_selected sel \/ ~ nothing_selected sel).
  { unfold nothing_selected.
    destruct sel as [|[|n names]|s]; [left; by left|left; by right| |];
      right; intros [?|?]; discriminate. }
  destruct Hdec as [Hsel|Hsel].
  { by rewrite !cast_votes_nothing_selected. }
  destruct (selected_nonempty sel Hsel) as [Hne Hshape].
  rewrite !(cast_votes_names sel (selected sel) remaining) by done.
  destruct (remaining <=? 0)%Z; [done|].
  by destruct (Z.of_nat (length (selected sel)) >? remaining)%Z.
Qed.

Lemma vote_clicks_files_irrelevant (clicks : list (datetime * selection)) :
  forall (votes_state : Z) (w1 w2 : world),
    (vote_clicks clicks votes_state w1).1
    = (vote_clicks clicks votes_state w2).1.
Proof.
  induction clicks as [|[now sel] rest IH]; intros votes_state w1 w2; [done|].
  rewrite !vote_clicks_step.
  pose proof (cast_votes_result_clock sel votes_state
                (mk_world now (files w1)) (mk_world now (files w2)) eq_refl)
    as Hsame.
  destruct (cast_votes sel votes_state (mk_world now (files w1)))
    as [[result1|] w1'];
    destruct (cast_votes sel votes_state (mk_world now (files w2)))
      as [[result2|] w2']; simpl in Hsame; try done.
  injection Hsame as ->. apply IH.
Qed.

(** X3: over one session of the Vote button (state starting at 3, each
    click running [cast_votes] on the state and storing the budget it
    returns), whatever is clicked and whenever, the state ends between 0 and
    3; and it ends the same whatever the files hold, since the budget
    [cast_votes] returns never depends on them. *)
Theorem session_budget_stays_within_three
    (clicks : list (datetime * selection)) (w : world) :
  exists final w',
    vote_clicks clicks initial_votes_state w = (Returns final, w')
    /\ (0 <= final <= 3)%Z
    /\ forall w2 : world,
         (vote_clicks clicks initial_votes_state w2).1 = Returns final.
Proof.
  destruct (vote_clicks_budget clicks initial_votes_state w)
    as (final & w' & cast & Hrun & Hbound & _);
    [unfold initial_votes_state; lia|].
  exists final, w'. split; [exact Hrun|]. split; [exact Hbound|].
  intros w2. rewrite (vote_clicks_files_irrelevant clicks _ w2 w).
  by rewrite Hrun.
Qed.
